(** * Guest stay accounts: the decision model and its HTTP boundary

    A shallow embedding of [src/guestStayAccounts/api.ts] together with
    the modules it imports.  The file has three layers:

    - the data model and the decider ([evolve], [initialState], [checkIn],
      [recordCharge], [recordPayment], [checkOut]).  [guestStayAccount.ts]
      and [businessLogic.ts] are imported by [api.ts] but their text is not
      part of the sources at hand, so these definitions follow the
      written specification and say so in their doc comments;
    - the collaborators of the API: the event store, the command handler,
      the clock, the existence oracle and the validation helpers;
    - the five route handlers of [guestStayAccountsApi] and
      [parseGuestStayAccountId], translated from [api.ts] line by line.

    Amounts are carried as exact values, except in the section on the
    ledger, which replays charges and payments on binary64 numbers. *)

From Stdlib Require Import QArith Qcanon Ascii Floats.
From stdpp Require Import gmap strings list.

Local Open Scope Qc_scope.

(** ** Data model *)

(** A JavaScript [Date], by its time value: milliseconds since the epoch. *)
Definition Date : Type := Z.

(** Amounts and balances, as the exact values the specification's data
    model speaks of (decimals): canonical rationals, with Leibniz equality.
    [api.ts] types the amounts as JavaScript numbers; what follows uses
    of an amount only that it is carried from the request into the command
    and the event, compared with zero, added and subtracted.  Rounding and
    infinities are not in this type: the one property that depends on the
    laws of addition is stated on binary64 numbers, in the section on the
    ledger below. *)
Abbreviation Amount := Qc.

(** Modelled from the spec: the type of account identifiers built by
    [toGuestStayAccountId] ([guestStayAccount.ts] is not among the
    sources).  "A composite, deterministic identifier derived from
    (guestId, roomId, stayStartDate), where stayStartDate is a calendar day
    with no time component." *)
Record GuestStayAccountId : Type := mkGuestStayAccountId {
  accountGuestId : string;
  accountRoomId : string;
  stayStartDate : string
}.

Global Instance GuestStayAccountId_eq_dec : EqDecision GuestStayAccountId.
Proof. solve_decision. Defined.

Global Instance GuestStayAccountId_countable : Countable GuestStayAccountId.
Proof.
  refine (inj_countable'
            (fun i => (accountGuestId i, accountRoomId i, stayStartDate i))
            (fun t => mkGuestStayAccountId t.1.1 t.1.2 t.2) _).
  by intros [].
Defined.

(** Modelled from the spec: the events of [guestStayAccount.ts], section 3
    of the specification, one constructor per event type with the listed
    fields. *)
Inductive GuestStayAccountEvent : Type :=
| GuestCheckedIn (guestId roomId : string) (checkInDate : Date)
| ChargeRecorded (guestStayAccountId : GuestStayAccountId)
                 (amount : Amount) (recordedAt : Date)
| PaymentRecorded (guestStayAccountId : GuestStayAccountId)
                  (amount : Amount) (recordedAt : Date)
| GuestCheckedOut (guestStayAccountId : GuestStayAccountId)
                  (checkedOutAt : Date)
| GuestCheckoutFailed (guestStayAccountId : GuestStayAccountId)
                      (reason : string) (attemptedAt : Date).

(** The [type] discriminant of an event, the field [api.ts] inspects at
    line 165. *)
Definition eventType (event : GuestStayAccountEvent) : string :=
  match event with
  | GuestCheckedIn _ _ _ => "GuestCheckedIn"
  | ChargeRecorded _ _ _ => "ChargeRecorded"
  | PaymentRecorded _ _ _ => "PaymentRecorded"
  | GuestCheckedOut _ _ => "GuestCheckedOut"
  | GuestCheckoutFailed _ _ _ => "GuestCheckoutFailed"
  end.

Definition eventReason (event : GuestStayAccountEvent) : option string :=
  match event with
  | GuestCheckoutFailed _ reason _ => Some reason
  | _ => None
  end.

(** Modelled from the spec: the state of [guestStayAccount.ts], section 3:
    [NotOpened] without fields, [Opened] with a balance and status
    'Opened', [CheckedOut] with status 'CheckedOut'. *)
Inductive GuestStayAccount : Type :=
| NotOpened
| Opened (balance : Amount)
| CheckedOut.

(** The [status] field read by [api.ts] at line 187; [NotOpened] has no
    fields, so the field is absent there. *)
Definition status (state : GuestStayAccount) : option string :=
  match state with
  | NotOpened => None
  | Opened _ => Some "Opened"
  | CheckedOut => Some "CheckedOut"
  end.

Definition balanceOf (state : GuestStayAccount) : option Amount :=
  match state with
  | Opened balance => Some balance
  | _ => None
  end.

(** ** Errors

    Thrown exceptions are the [Throw] branch of [Result]; the taxonomy is
    that of section 7 of the specification. *)
Inductive ValidationErrors : Type :=
| NOT_A_NONEMPTY_STRING
| NOT_A_POSITIVE_NUMBER
| INVALID_DATE_FORMAT.

Inductive PreconditionError : Type :=
| NotOpen
| AlreadyOpened
| AlreadyClosed.

Inductive Error : Type :=
| ValidationError (code : ValidationErrors)
| IllegalStateError (kind : PreconditionError).

Inductive Result (A : Type) : Type :=
| Ok (value : A)
| Throw (error : Error).
Arguments Ok {A} value.
Arguments Throw {A} error.



(** ** Commands

    The shapes are those of the object literals at lines 83-90, 108-115,
    131-138 and 154-158 of [api.ts]: [data] fields plus [metadata.now]. *)
Record CheckIn : Type := mkCheckIn {
  checkInGuestId : string;
  checkInRoomId : string;
  checkInNow : Date
}.

Record RecordCharge : Type := mkRecordCharge {
  chargeAccountId : GuestStayAccountId;
  chargeAmount : Amount;
  chargeNow : Date
}.

Record RecordPayment : Type := mkRecordPayment {
  paymentAccountId : GuestStayAccountId;
  paymentAmount : Amount;
  paymentNow : Date
}.

Record CheckOut : Type := mkCheckOut {
  checkOutAccountId : GuestStayAccountId;
  checkOutNow : Date
}.

(** ** The decider *)

(** Modelled from the spec: [initialState] of [guestStayAccount.ts];
    replay starts from the not-yet-opened account. *)
Definition initialState : GuestStayAccount := NotOpened.

(** Modelled from the spec: [evolve] of [guestStayAccount.ts], section 4.1.
    The five listed transitions are written out; for every other pair the
    specification promises nothing, and the state is returned as it is. *)
Definition evolve (state : GuestStayAccount) (event : GuestStayAccountEvent)
  : GuestStayAccount :=
  match state, event with
  | NotOpened, GuestCheckedIn _ _ _ => Opened 0
  | Opened balance, ChargeRecorded _ amount _ => Opened (balance + amount)
  | Opened balance, PaymentRecorded _ amount _ => Opened (balance - amount)
  | Opened _, GuestCheckedOut _ _ => CheckedOut
  | Opened balance, GuestCheckoutFailed _ _ _ => Opened balance
  | _, _ => state
  end.

(** Modelled from the spec: [checkIn] of [businessLogic.ts], section 4.2:
    the state must be [NotOpened], and the event carries the guest, the
    room and the command's timestamp.  For [Opened] and [CheckedOut] the
    branches follow the contract sentence of section 4.2 (an
    AlreadyExists-class error); the same section reports that the source
    was seen to proceed there, and section 9 leaves the matter open. *)
Definition checkIn (command : CheckIn) (state : GuestStayAccount)
  : Result GuestStayAccountEvent :=
  match state with
  | NotOpened =>
      Ok (GuestCheckedIn (checkInGuestId command) (checkInRoomId command)
                         (checkInNow command))
  | Opened _ => Throw (IllegalStateError AlreadyOpened)
  | CheckedOut => Throw (IllegalStateError AlreadyClosed)
  end.

(** Modelled from the spec: [recordCharge] of [businessLogic.ts],
    section 4.3: on [Opened] the event carries the given amount and the
    command's timestamp; otherwise a NotOpen error. *)
Definition recordCharge (command : RecordCharge) (state : GuestStayAccount)
  : Result GuestStayAccountEvent :=
  match state with
  | Opened _ =>
      Ok (ChargeRecorded (chargeAccountId command) (chargeAmount command)
                         (chargeNow command))
  | _ => Throw (IllegalStateError NotOpen)
  end.

(** Modelled from the spec: [recordPayment] of [businessLogic.ts],
    section 4.3, the mirror image of [recordCharge]. *)
Definition recordPayment (command : RecordPayment) (state : GuestStayAccount)
  : Result GuestStayAccountEvent :=
  match state with
  | Opened _ =>
      Ok (PaymentRecorded (paymentAccountId command) (paymentAmount command)
                          (paymentNow command))
  | _ => Throw (IllegalStateError NotOpen)
  end.

(** Modelled from the spec: [checkOut] of [businessLogic.ts], section 4.4:
    on [Opened] a zero balance checks the guest out and any other balance
    is recorded as a failed attempt; otherwise a NotOpen error. *)
Definition checkOut (command : CheckOut) (state : GuestStayAccount)
  : Result GuestStayAccountEvent :=
  match state with
  | Opened balance =>
      if decide (balance = 0)
      then Ok (GuestCheckedOut (checkOutAccountId command)
                               (checkOutNow command))
      else Ok (GuestCheckoutFailed (checkOutAccountId command)
                                   "balance not settled"
                                   (checkOutNow command))
  | _ => Throw (IllegalStateError NotOpen)
  end.

(** Replay of a history, as [events.reduce(evolve, initialState())]. *)
Definition replayFrom (state : GuestStayAccount)
  (events : list GuestStayAccountEvent) : GuestStayAccount :=
  foldl evolve state events.

Definition replay (events : list GuestStayAccountEvent) : GuestStayAccount :=
  replayFrom initialState events.

(** ** The HTTP boundary: requests, responses and the world *)

(** A JavaScript [number] reaching the boundary: either not-a-number or a
    finite value, held exactly.  The infinities are not represented. *)
Inductive number : Type :=
| NaN
| Num (value : Amount).

(** [Number(x)] for [x : number | undefined]: [undefined] converts to
    [NaN], a number converts to itself. *)
Definition Number (value : option Amount) : number :=
  match value with
  | Some q => Num q
  | None => NaN
  end.

(** Route parameters, [Partial<{ guestId; roomId; checkInDate }>]: every
    field may be absent. *)
Record Params : Type := mkParams {
  guestId : option string;
  roomId : option string;
  checkInDate : option string
}.

(** The requests served by the router, one constructor per registered
    route; [amount] is [request.body.amount]. *)
Inductive Request : Type :=
| CheckInRequest (params : Params)
| RecordChargeRequest (params : Params) (amount : option Amount)
| RecordPaymentRequest (params : Params) (amount : option Amount)
| CheckOutRequest (params : Params)
| GetShoppingCartRequest (params : Params).

Inductive Response : Type :=
| Created (url : string)
| NoContent
| Forbidden
| NotFound
| OK (body : GuestStayAccount).

(** What a handler does to its collaborators, in the order it does it. *)
Inductive Effect : Type :=
| ClockRead (now : Date)
| StayLookedUp (guest room : string) (day : Date) (found : bool)
| CommandHandled (stream : GuestStayAccountId)
| StreamAggregated (stream : GuestStayAccountId).

(** The world a handler runs in: the event store (one ordered history per
    stream), the number of clock readings taken so far, and the log of
    collaborator calls. *)
Record World : Type := mkWorld {
  streams : gmap GuestStayAccountId (list GuestStayAccountEvent);
  clockReads : nat;
  trace : list Effect
}.

Definition emptyWorld : World := mkWorld ∅ 0 [].

Definition logEffect (effect : Effect) (w : World) : World :=
  mkWorld (streams w) (clockReads w) (trace w ++ [effect]).

(** Handlers are state-passing computations that may throw. *)
Definition Handler (A : Type) : Type := World -> Result A * World.

Global Instance Handler_ret : MRet Handler := fun A a w => (Ok a, w).

Global Instance Handler_bind : MBind Handler := fun A B k m w =>
  match m w with
  | (Ok a, w') => k a w'
  | (Throw e, w') => (Throw e, w')
  end.

Definition liftResult {A : Type} (r : Result A) : Handler A :=
  fun w => (r, w).

(** *** Validation helpers *)

(** Modelled from the spec: [assertNotEmptyString] is imported from the
    emmett package and is not under src/; section 6 gives its contract:
    identifiers must be non-empty strings.  An absent value is no string. *)
Definition assertNotEmptyString (value : option string) : Result string :=
  match value with
  | Some s =>
      if (String.length s =? 0)%nat
      then Throw (ValidationError NOT_A_NONEMPTY_STRING)
      else Ok s
  | None => Throw (ValidationError NOT_A_NONEMPTY_STRING)
  end.

(** Modelled from the spec: [assertPositiveNumber] is imported from the
    emmett package and is not under src/; section 6 gives its contract:
    amounts must be strictly positive numbers.  [NaN] is not one. *)
Definition assertPositiveNumber (value : number) : Result Amount :=
  match value with
  | Num q =>
      if decide (0 < q)
      then Ok q
      else Throw (ValidationError NOT_A_POSITIVE_NUMBER)
  | NaN => Throw (ValidationError NOT_A_POSITIVE_NUMBER)
  end.

(** *** The event store and the command handler *)

(** Modelled from the spec: the [EventStore] interface is imported from
    the emmett package; section 6 gives its contract: an ordered sequence
    of events per stream, replayable from the start.  The store is read
    and written by one request at a time, so an append never conflicts. *)
Definition readStream (stream : GuestStayAccountId) (w : World)
  : option (list GuestStayAccountEvent) :=
  streams w !! stream.

(** Modelled from the spec: appending puts the new events at the end of
    the stream's history, creating the stream when it did not exist. *)
Definition appendToStream (stream : GuestStayAccountId)
  (events : list GuestStayAccountEvent) (w : World) : World :=
  mkWorld (<[stream := default [] (readStream stream w) ++ events]> (streams w))
          (clockReads w) (trace w).

(** Modelled from the spec: [eventStore.aggregateStream(id, { evolve,
    initialState })] of the emmett package, as lines 180-187 of [api.ts]
    use it: [None] (JavaScript [null]) when the stream does not exist,
    otherwise the state rebuilt by replay from [initialState]. *)
Definition aggregateStream (stream : GuestStayAccountId) (w : World)
  : option GuestStayAccount :=
  replay <$> readStream stream w.

(** Modelled from the spec: [handle = CommandHandler(evolve,
    initialState)], line 31; [CommandHandler] is imported from the emmett
    package.  Section 2 gives the cycle: load the history of the stream,
    replay it from the initial state, pass the state to the decision,
    append the event it returns.  The callback is a closure: [L] is the
    type of the local variables it may assign, threaded through the call.
    A decision that throws appends nothing. *)
Definition handle {L : Type} (stream : GuestStayAccountId)
  (callback : GuestStayAccount -> L -> Result GuestStayAccountEvent * L)
  (locals : L) : Handler L :=
  fun w =>
    let w1 := logEffect (CommandHandled stream) w in
    let state := default initialState (aggregateStream stream w1) in
    match callback state locals with
    | (Ok event, locals') => (Ok locals', appendToStream stream [event] w1)
    | (Throw e, _) => (Throw e, w1)
    end.

(** A callback that assigns no local variable. *)
Definition pureDecision
  (decision : GuestStayAccount -> Result GuestStayAccountEvent)
  : GuestStayAccount -> unit -> Result GuestStayAccountEvent * unit :=
  fun state locals => (decision state, locals).

Section Api.

(** The date helpers of the emmett package and the two collaborators
    injected into [guestStayAccountsApi].  The clock is a deterministic
    sequence of readings. *)
Variable formatDateToUtcYYYYMMDD : Date -> string.
Variable parseDateFromUtcYYYYMMDD : string -> option Date.
Variable doesGuestStayExist : string -> string -> Date -> bool.
Variable getCurrentTime : nat -> Date.

(** Modelled from the spec: [toGuestStayAccountId] of
    [guestStayAccount.ts]: the identifier is made of the guest, the room
    and the calendar day of the date, without its time of day. *)
Definition toGuestStayAccountId (guest room : string) (date : Date)
  : GuestStayAccountId :=
  mkGuestStayAccountId guest room (formatDateToUtcYYYYMMDD date).

(** A date string that does not parse makes the helper throw. *)
Definition parseDate (dateString : string) : Result Date :=
  match parseDateFromUtcYYYYMMDD dateString with
  | Some date => Ok date
  | None => Throw (ValidationError INVALID_DATE_FORMAT)
  end.

Definition readClock : Handler Date :=
  fun w =>
    let now := getCurrentTime (clockReads w) in
    (Ok now,
     mkWorld (streams w) (S (clockReads w)) (trace w ++ [ClockRead now])).

Definition lookUpStay (guest room : string) (day : Date) : Handler bool :=
  fun w =>
    let found := doesGuestStayExist guest room day in
    (Ok found, logEffect (StayLookedUp guest room day found) w).

(** [parseGuestStayAccountId], lines 196-209; the arguments of the call
    are evaluated from left to right. *)
Definition parseGuestStayAccountId (params : Params)
  : Result GuestStayAccountId :=
  match assertNotEmptyString (guestId params) with
  | Throw e => Throw e
  | Ok guest =>
      match assertNotEmptyString (roomId params) with
      | Throw e => Throw e
      | Ok room =>
          match assertNotEmptyString (checkInDate params) with
          | Throw e => Throw e
          | Ok dateString =>
              match parseDate dateString with
              | Throw e => Throw e
              | Ok date => Ok (toGuestStayAccountId guest room date)
              end
          end
      end
  end.

(** Check In, lines 71-100. *)
Definition checkInRoute (params : Params) : Handler Response :=
  guest ← liftResult (assertNotEmptyString (guestId params));
  room ← liftResult (assertNotEmptyString (roomId params));
  now ← readClock;
  found ← lookUpStay guest room now;
  if negb found then mret Forbidden
  else
    let guestStayAccountId := toGuestStayAccountId guest room now in
    let command := mkCheckIn guest room now in
    _ ← handle guestStayAccountId (pureDecision (checkIn command)) tt;
    mret (Created ("/guests/" +:+ guest +:+ "/stays/" +:+ room
                     +:+ "/periods/" +:+ formatDateToUtcYYYYMMDD now)).

(** Record Charge, lines 103-123.  The amount is asserted while the
    command literal is built, before the clock is read. *)
Definition recordChargeRoute (params : Params) (amount : option Amount)
  : Handler Response :=
  guestStayAccountId ← liftResult (parseGuestStayAccountId params);
  positive ← liftResult (assertPositiveNumber (Number amount));
  now ← readClock;
  let command := mkRecordCharge guestStayAccountId positive now in
  _ ← handle guestStayAccountId (pureDecision (recordCharge command)) tt;
  mret NoContent.

(** Record Payment, lines 126-146. *)
Definition recordPaymentRoute (params : Params) (amount : option Amount)
  : Handler Response :=
  guestStayAccountId ← liftResult (parseGuestStayAccountId params);
  positive ← liftResult (assertPositiveNumber (Number amount));
  now ← readClock;
  let command := mkRecordPayment guestStayAccountId positive now in
  _ ← handle guestStayAccountId (pureDecision (recordPayment command)) tt;
  mret NoContent.

(** The callback of the check-out route, lines 162-168: it assigns the
    local [wasCheckedOut] when [checkOut] returns, and not when it
    throws. *)
Definition checkOutDecision (command : CheckOut)
  : GuestStayAccount -> bool -> Result GuestStayAccountEvent * bool :=
  fun state wasCheckedOut =>
    match checkOut command state with
    | Ok result =>
        (Ok result, bool_decide (eventType result = "GuestCheckedOut"))
    | Throw e => (Throw e, wasCheckedOut)
    end.

(** Check Out, lines 149-172. *)
Definition checkOutRoute (params : Params) : Handler Response :=
  guestStayAccountId ← liftResult (parseGuestStayAccountId params);
  now ← readClock;
  let command := mkCheckOut guestStayAccountId now in
  wasCheckedOut ← handle guestStayAccountId (checkOutDecision command) false;
  mret (if wasCheckedOut : bool then NoContent else Forbidden).

(** The read of the event store made by the details route. *)
Definition aggregate (stream : GuestStayAccountId)
  : Handler (option GuestStayAccount) :=
  fun w =>
    let w1 := logEffect (StreamAggregated stream) w in
    (Ok (aggregateStream stream w1), w1).

(** Account details, lines 175-193. *)
Definition getShoppingCartRoute (params : Params) : Handler Response :=
  guestStayAccountId ← liftResult (parseGuestStayAccountId params);
  result ← aggregate guestStayAccountId;
  match result with
  | None => mret NotFound
  | Some state =>
      if bool_decide (status state ≠ Some "Opened") then mret NotFound
      else mret (OK state)
  end.

(** [guestStayAccountsApi], lines 59-194: the router. *)
Definition guestStayAccountsApi (request : Request) : Handler Response :=
  match request with
  | CheckInRequest params => checkInRoute params
  | RecordChargeRequest params amount => recordChargeRoute params amount
  | RecordPaymentRequest params amount => recordPaymentRoute params amount
  | CheckOutRequest params => checkOutRoute params
  | GetShoppingCartRequest params => getShoppingCartRoute params
  end.

(** *** The boundary contract, in the words of the specification

    Section 6: identifiers must be non-empty strings, amounts must be
    strictly positive numbers, dates must parse as calendar dates.  These
    predicates say so without reference to the handlers; the properties
    below compare the handlers with them. *)

(** Present and not the empty string. *)
Definition nonEmptyString (value : option string) : bool :=
  match value with
  | Some s => negb (String.eqb s "")
  | None => false
  end.

(** Present and accepted by the date parser. *)
Definition validDate (value : option string) : bool :=
  match value with
  | Some s => bool_decide (is_Some (parseDateFromUtcYYYYMMDD s))
  | None => false
  end.

(** Present and greater than zero. *)
Definition strictlyPositive (value : option Amount) : bool :=
  match value with
  | Some q => bool_decide (0 < q)
  | None => false
  end.

(** The parameters of the routes below [/periods/:checkInDate]. *)
Definition validPeriod (params : Params) : bool :=
  nonEmptyString (guestId params) && nonEmptyString (roomId params)
  && nonEmptyString (checkInDate params) && validDate (checkInDate params).

(** Each route is held to the inputs it has: the check-in route has no
    date, and only the charge and payment routes have an amount. *)
Definition validInput (request : Request) : bool :=
  match request with
  | CheckInRequest params =>
      nonEmptyString (guestId params) && nonEmptyString (roomId params)
  | RecordChargeRequest params amount
  | RecordPaymentRequest params amount =>
      validPeriod params && strictlyPositive amount
  | CheckOutRequest params
  | GetShoppingCartRequest params => validPeriod params
  end.

End Api.

(** ** A reference instance of the injected collaborators

    The handlers above are parametric in the date helpers, the oracle and
    the clock.  To run them on concrete requests this section provides one
    executable instance: proleptic Gregorian dates in UTC, an oracle that
    knows the stays of one guest, and a clock that advances by one second
    per reading. *)

Definition msPerDay : Z := 86400000.

(** Day number since 1970-01-01 to (year, month, day). *)
Definition civilFromDays (days : Z) : Z * Z * Z :=
  let z := (days + 719468)%Z in
  let era := (z / 146097)%Z in
  let doe := (z - era * 146097)%Z in
  let yoe := ((doe - doe / 1460 + doe / 36524 - doe / 146096) / 365)%Z in
  let doy := (doe - (365 * yoe + yoe / 4 - yoe / 100))%Z in
  let mp := ((5 * doy + 2) / 153)%Z in
  let d := (doy - (153 * mp + 2) / 5 + 1)%Z in
  let m := (if mp <? 10 then mp + 3 else mp - 9)%Z in
  let y := (yoe + era * 400)%Z in
  ((if m <=? 2 then y + 1 else y)%Z, m, d).

(** (year, month, day) to the day number since 1970-01-01. *)
Definition daysFromCivil (year month day : Z) : Z :=
  let y := (if month <=? 2 then year - 1 else year)%Z in
  let era := (y / 400)%Z in
  let yoe := (y - era * 400)%Z in
  let mp := (if month <=? 2 then month + 9 else month - 3)%Z in
  let doy := ((153 * mp + 2) / 5 + day - 1)%Z in
  let doe := (yoe * 365 + yoe / 4 - yoe / 100 + doy)%Z in
  (era * 146097 + doe - 719468)%Z.

Definition digitChar (n : Z) : ascii :=
  ascii_of_nat (48 + Z.to_nat (n mod 10)).

Definition digitValue (c : ascii) : option Z :=
  let n := Z.of_nat (nat_of_ascii c) in
  if ((48 <=? n) && (n <=? 57))%Z then Some (n - 48)%Z else None.

Definition twoDigits (n : Z) : string :=
  String (digitChar (n / 10)) (String (digitChar n) EmptyString).

Definition fourDigits (n : Z) : string :=
  twoDigits (n / 100) +:+ twoDigits n.

(** [YYYY-MM-DD] of the UTC day of a date, for years 0000 to 9999. *)
Definition utcFormat (date : Date) : string :=
  let '(y, m, d) := civilFromDays (date / msPerDay) in
  fourDigits y +:+ "-" +:+ twoDigits m +:+ "-" +:+ twoDigits d.

Definition number2 (a b : ascii) : option Z :=
  x ← digitValue a; y ← digitValue b; Some (10 * x + y)%Z.

(** Midnight UTC of a day written [YYYY-MM-DD]; [None] when the string
    has another shape or names no day of the calendar. *)
Definition utcParse (dateString : string) : option Date :=
  match String.list_ascii_of_string dateString with
  | [y1; y2; y3; y4; dash1; m1; m2; dash2; d1; d2] =>
      if bool_decide (dash1 = "-"%char ∧ dash2 = "-"%char) then
        yh ← number2 y1 y2; yl ← number2 y3 y4;
        m ← number2 m1 m2; d ← number2 d1 d2;
        let y := (100 * yh + yl)%Z in
        let days := daysFromCivil y m d in
        if bool_decide (civilFromDays days = (y, m, d))
        then Some (days * msPerDay)%Z
        else None
      else None
  | _ => None
  end.

Definition knownGuest : string := "guest-7".

Definition sampleOracle (guest room : string) (day : Date) : bool :=
  bool_decide (guest = knownGuest).

(** 2023-11-14T22:13:20Z and one second more per reading. *)
Definition sampleClock (reads : nat) : Date :=
  (1700000000000 + 1000 * Z.of_nat reads)%Z.

Definition sampleApi : Request -> Handler Response :=
  guestStayAccountsApi utcFormat utcParse sampleOracle sampleClock.

(** Runs the requests in order and collects what each one answered. *)
Fixpoint serve (api : Request -> Handler Response) (requests : list Request)
  (w : World) : list (Result Response) * World :=
  match requests with
  | [] => ([], w)
  | request :: rest =>
      let '(answer, w1) := api request w in
      let '(answers, w2) := serve api rest w1 in
      (answer :: answers, w2)
  end.

Definition sampleStay : Params :=
  mkParams (Some knownGuest) (Some "room-12") None.

Definition samplePeriod : Params :=
  mkParams (Some knownGuest) (Some "room-12") (Some "2023-11-14").

Definition sampleAccountId : GuestStayAccountId :=
  mkGuestStayAccountId knownGuest "room-12" "2023-11-14".

(** ** The ledger on JavaScript numbers

    The amounts that [api.ts] puts into the commands (lines 38, 44, 112
    and 135) are JavaScript numbers: binary64 floating point.  This
    section replays charges and payments on them. *)









Definition sumAmounts (amounts : list Amount) : Amount :=
  foldr Qcplus 0 amounts.



(** ** Auxiliary definitions for the statements *)

(** The state a command for [stream] is decided on in world [w]: the
    replayed history, or the initial state when there is no history. *)
Definition stateOf (stream : GuestStayAccountId) (w : World)
  : GuestStayAccount :=
  default initialState (aggregateStream stream w).

(** The reference world after a check-in and a charge of 50, and after a
    check-in followed at once by a check-out. *)
Definition openWorld : World :=
  (serve sampleApi
     [CheckInRequest sampleStay;
      RecordChargeRequest samplePeriod (Some (Qc_of_Z 50))]
     emptyWorld).2.

Definition closedWorld : World :=
  (serve sampleApi
     [CheckInRequest sampleStay; CheckOutRequest samplePeriod]
     emptyWorld).2.

(** A history is approved when each check-in it records is one the
    oracle accepts; a world is approved when all its histories are. *)
Definition approvedHistory (oracle : string -> string -> Date -> bool)
  (events : list GuestStayAccountEvent) : Prop :=
  forall guest room day,
    GuestCheckedIn guest room day ∈ events -> oracle guest room day = true.

Definition approvedWorld (oracle : string -> string -> Date -> bool)
  (w : World) : Prop :=
  forall stream events,
    readStream stream w = Some events -> approvedHistory oracle events.

(** Unfolds the sequencing of a handler. *)
Ltac run_handler :=
  unfold mbind, Handler_bind, liftResult, mret, Handler_ret;
  cbv beta iota zeta.

(** Splits on the outcome of the [handle] call in the goal; [fact] tells
    what any such call does to the log, and is recorded as [Htrace]. *)
Ltac case_handle fact Htrace :=
  match goal with
  | |- context [handle ?id ?d ?l ?w0] =>
      pose proof (proj1 (fact _ id d l w0)) as Htrace;
      destruct (handle id d l w0) as [[?|?] ?]
  end.

(** Closes a goal in which the route threw at its boundary. *)
Ltac stopped_at_boundary := cbn [andb]; eauto.

(** Closes a goal that asks the log of the final world to be longer than
    the log of the initial one; the second form first splits on the
    [handle] call the final world comes from. *)
Ltac log_grows :=
  cbn [fst snd logEffect trace]; rewrite !length_app; cbn; lia.

Ltac log_grows_by_handle fact :=
  let Htrace := fresh "Htrace" in
  case_handle fact Htrace; cbn [fst snd] in *; rewrite Htrace; log_grows.

(** Unfolds the routes down to the checks, calls and decisions they are
    made of. *)
Ltac open_routes :=
  unfold guestStayAccountsApi, checkInRoute, recordChargeRoute,
    recordPaymentRoute, checkOutRoute, getShoppingCartRoute, aggregate,
    readClock, lookUpStay, handle, pureDecision, checkOutDecision;
  run_handler.

(** Splits a route into its runs: each boundary check, the oracle, the
    decision and the aggregation are decided one after the other, and the
    checks leave behind what they say about the validity of the input.
    The three facts relate [assertNotEmptyString], [parseGuestStayAccountId]
    and [assertPositiveNumber] to the boundary contract. *)
Ltac split_route string_fact period_fact amount_fact :=
  open_routes;
  repeat match goal with
  | |- context [assertNotEmptyString ?v] =>
      let H := fresh "Hstring" in
      pose proof (string_fact v) as H;
      destruct (assertNotEmptyString v); destruct H as [? H];
      rewrite ?H; cbn [andb]
  | |- context [parseGuestStayAccountId ?f ?p ?x] =>
      let H := fresh "Hperiod" in
      pose proof (period_fact x) as H;
      destruct (parseGuestStayAccountId f p x); destruct H as [H ?];
      rewrite ?H; cbn [andb]
  | |- context [assertPositiveNumber (Number ?v)] =>
      let H := fresh "Hamount" in
      pose proof (amount_fact v) as H;
      destruct (assertPositiveNumber (Number v)); destruct H as [? H];
      rewrite ?H; cbn [andb]
  | |- context [negb (?oracle ?g ?r ?d)] =>
      let H := fresh "Horacle" in
      destruct (oracle g r d) eqn:H; cbn [negb]
  | |- context [checkIn ?c ?s] =>
      let H := fresh "Hdecision" in destruct (checkIn c s) eqn:H
  | |- context [recordCharge ?c ?s] =>
      let H := fresh "Hdecision" in destruct (recordCharge c s) eqn:H
  | |- context [recordPayment ?c ?s] =>
      let H := fresh "Hdecision" in destruct (recordPayment c s) eqn:H
  | |- context [checkOut ?c ?s] =>
      let H := fresh "Hdecision" in destruct (checkOut c s) eqn:H
  | |- context [aggregateStream ?s ?w] =>
      let H := fresh "Haggregate" in destruct (aggregateStream s w) eqn:H
  | |- context [bool_decide (status ?s ≠ Some "Opened")] =>
      let H := fresh "Hstatus" in
      destruct (bool_decide (status s ≠ Some "Opened")) eqn:H
  end;
  cbv beta iota.

(** * Properties of the decider *)

Lemma sumAmounts_cons (x : Amount) (xs : list Amount) :
  sumAmounts (x :: xs) = x + sumAmounts xs.
Proof. reflexivity. Qed.

Lemma sumAmounts_app (xs ys : list Amount) :
  sumAmounts (xs ++ ys) = sumAmounts xs + sumAmounts ys.
Proof.
  induction xs as [|x xs IH].
  - change (sumAmounts []) with (Q2Qc 0). cbn [app]. ring.
  - cbn [app]. rewrite !sumAmounts_cons, IH. ring.
Qed.







(** C1.  On an [Opened] account, [checkOut] produces a [GuestCheckedOut]
    event if and only if the balance is exactly zero; for every other
    balance it produces [GuestCheckoutFailed] with the reason
    "balance not settled", and evolving that event leaves the state, and
    so the balance, as it was. *)
Theorem checkOut_settled_iff_zero_balance
  (command : CheckOut) (balance : Amount) :
  ((exists event,
       checkOut command (Opened balance) = Ok event
       /\ eventType event = "GuestCheckedOut")
   <-> balance = 0)
  /\ (balance <> 0 ->
      exists event,
        checkOut command (Opened balance) = Ok event
        /\ eventType event = "GuestCheckoutFailed"
        /\ eventReason event = Some "balance not settled"
        /\ evolve (Opened balance) event = Opened balance).
Proof.
  unfold checkOut. destruct (decide (balance = 0)) as [Hzero|Hnonzero].
  - split; [|done]. split; [done|]. intros _. by eexists.
  - split.
    + split; [|done]. intros (event & Hevent & Htype).
      injection Hevent as <-. discriminate Htype.
    + intros _. by eexists.
Qed.

(** C2.  [evolve] is a total function of the state and the event, and it
    implements the transition table: check-in opens the account with
    balance 0, a charge adds its amount, a payment subtracts its amount,
    a check-out closes the account, a failed check-out changes nothing. *)
Theorem evolve_transition_table :
  (forall guest room date,
      evolve NotOpened (GuestCheckedIn guest room date) = Opened 0)
  /\ (forall balance account amount date,
         evolve (Opened balance) (ChargeRecorded account amount date)
         = Opened (balance + amount))
  /\ (forall balance account amount date,
         evolve (Opened balance) (PaymentRecorded account amount date)
         = Opened (balance - amount))
  /\ (forall balance account date,
         evolve (Opened balance) (GuestCheckedOut account date) = CheckedOut)
  /\ (forall balance account reason date,
         evolve (Opened balance) (GuestCheckoutFailed account reason date)
         = Opened balance).
Proof. repeat split. Qed.






(** * Properties of the HTTP boundary *)

Lemma assertNotEmptyString_nonEmpty (value : option string) :
  match assertNotEmptyString value with
  | Ok s => value = Some s /\ nonEmptyString value = true
  | Throw e =>
      e = ValidationError NOT_A_NONEMPTY_STRING /\ nonEmptyString value = false
  end.
Proof. by destruct value as [[|c s]|]. Qed.

Lemma assertPositiveNumber_positive (amount : option Amount) :
  match assertPositiveNumber (Number amount) with
  | Ok q => amount = Some q /\ strictlyPositive amount = true
  | Throw e =>
      e = ValidationError NOT_A_POSITIVE_NUMBER
      /\ strictlyPositive amount = false
  end.
Proof.
  destruct amount as [q|]; cbn; [|done].
  destruct (decide (0 < q)) as [Hpos|Hneg].
  - by rewrite bool_decide_eq_true_2.
  - by rewrite bool_decide_eq_false_2.
Qed.

Lemma logEffect_trace effect w :
  trace (logEffect effect w) = trace w ++ [effect].
Proof. reflexivity. Qed.

Lemma aggregateStream_logEffect stream effect w :
  aggregateStream stream (logEffect effect w) = aggregateStream stream w.
Proof. reflexivity. Qed.

(** What [handle] leaves behind, whatever the decision was: one more entry
    in the log and the same clock. *)
Lemma handle_world {L : Type} stream
  (callback : GuestStayAccount -> L -> Result GuestStayAccountEvent * L)
  (locals : L) (w : World) :
  trace (handle stream callback locals w).2
  = trace w ++ [CommandHandled stream]
  /\ clockReads (handle stream callback locals w).2 = clockReads w.
Proof.
  unfold handle. by destruct (callback _ locals) as [[event|e] locals'].
Qed.

(** What [handle] does to the event store: nothing when the decision
    threw, one event appended to the stream when it returned. *)
Lemma handle_streams {L : Type} stream
  (callback : GuestStayAccount -> L -> Result GuestStayAccountEvent * L)
  (locals : L) (w : World) :
  match (callback (stateOf stream w) locals).1 with
  | Ok event =>
      forall other,
        readStream other (handle stream callback locals w).2
        = if decide (stream = other)
          then Some (default [] (readStream stream w) ++ [event])
          else readStream other w
  | Throw _ => streams (handle stream callback locals w).2 = streams w
  end.
Proof.
  unfold handle, stateOf. cbv zeta. rewrite aggregateStream_logEffect.
  destruct (callback _ locals) as [[event|e] locals']; cbn [fst]; [|done].
  intros other. unfold readStream, appendToStream. cbn [streams snd].
  apply lookup_insert.
Qed.

Lemma approvedHistory_snoc oracle events event :
  approvedHistory oracle events ->
  (forall guest room day,
      event = GuestCheckedIn guest room day -> oracle guest room day = true) ->
  approvedHistory oracle (events ++ [event]).
Proof.
  intros Hevents Hevent guest room day Hin.
  apply elem_of_app in Hin as [Hin|Hin]; [by apply Hevents|].
  apply list_elem_of_singleton in Hin. by apply Hevent.
Qed.

Lemma approvedWorld_streams oracle w w' :
  streams w' = streams w -> approvedWorld oracle w -> approvedWorld oracle w'.
Proof.
  intros Hsame Hw stream events. unfold readStream. rewrite Hsame. apply Hw.
Qed.

Lemma approvedWorld_handle {L : Type} oracle stream
  (callback : GuestStayAccount -> L -> Result GuestStayAccountEvent * L)
  (locals : L) (w : World) :
  approvedWorld oracle w ->
  (forall state event guest room day,
      (callback state locals).1 = Ok event ->
      event = GuestCheckedIn guest room day -> oracle guest room day = true) ->
  approvedWorld oracle (handle stream callback locals w).2.
Proof.
  intros Hw Hcallback.
  pose proof (handle_streams stream callback locals w) as Hstreams.
  destruct (callback (stateOf stream w) locals).1 as [event|e] eqn:Hdecision.
  - intros other events. rewrite Hstreams. case_decide as Hother.
    + intros [= <-]. apply approvedHistory_snoc.
      * destruct (readStream stream w) as [history|] eqn:Hhistory.
        -- by apply (Hw stream).
        -- intros guest room day Hin. by apply elem_of_nil in Hin.
      * intros guest room day. by apply (Hcallback (stateOf stream w)).
    + apply Hw.
  - by apply (approvedWorld_streams oracle w).
Qed.

Lemma then_answer_world {L : Type} (action : Handler L) (answer : L -> Response)
  (w : World) :
  ((x ← action; mret (answer x)) w).2 = (action w).2.
Proof. run_handler. by destruct (action w) as [[x|e] w']. Qed.

Section ApiProperties.

Variable formatDateToUtcYYYYMMDD : Date -> string.
Variable parseDateFromUtcYYYYMMDD : string -> option Date.
Variable doesGuestStayExist : string -> string -> Date -> bool.
Variable getCurrentTime : nat -> Date.

Local Abbreviation toId := (toGuestStayAccountId formatDateToUtcYYYYMMDD).
Local Abbreviation parseId :=
  (parseGuestStayAccountId formatDateToUtcYYYYMMDD parseDateFromUtcYYYYMMDD).
Local Abbreviation api :=
  (guestStayAccountsApi formatDateToUtcYYYYMMDD parseDateFromUtcYYYYMMDD
     doesGuestStayExist getCurrentTime).
Local Abbreviation valid := (validInput parseDateFromUtcYYYYMMDD).
Local Abbreviation approved := (approvedWorld doesGuestStayExist).

Lemma parseGuestStayAccountId_validPeriod (params : Params) :
  match parseId params with
  | Ok stream =>
      validPeriod parseDateFromUtcYYYYMMDD params = true
      /\ exists guest room dateString date,
          guestId params = Some guest /\ roomId params = Some room
          /\ checkInDate params = Some dateString
          /\ parseDateFromUtcYYYYMMDD dateString = Some date
          /\ stream = toId guest room date
  | Throw e =>
      validPeriod parseDateFromUtcYYYYMMDD params = false
      /\ exists code, e = ValidationError code
  end.
Proof using Type.
  unfold parseGuestStayAccountId, validPeriod.
  pose proof (assertNotEmptyString_nonEmpty (guestId params)) as Hguest.
  destruct (assertNotEmptyString (guestId params)) as [guest|e];
    destruct Hguest as [Hguest ->]; [|subst e; eauto].
  pose proof (assertNotEmptyString_nonEmpty (roomId params)) as Hroom.
  destruct (assertNotEmptyString (roomId params)) as [room|e];
    destruct Hroom as [Hroom ->]; [|subst e; eauto].
  pose proof (assertNotEmptyString_nonEmpty (checkInDate params)) as Hdate.
  destruct (assertNotEmptyString (checkInDate params)) as [dateString|e];
    destruct Hdate as [Hdate ->]; [|subst e; eauto].
  unfold parseDate, validDate. rewrite Hdate.
  destruct (parseDateFromUtcYYYYMMDD dateString) as [date|] eqn:Hparse; cbn.
  - split; [done|]. by exists guest, room, dateString, date.
  - split; [done|eauto].
Qed.


(** The check-out route past its boundary, as one equation. *)
Lemma checkOutRoute_past_boundary params stream w :
  parseId params = Ok stream ->
  let now := getCurrentTime (clockReads w) in
  let w1 := logEffect (CommandHandled stream) (readClock getCurrentTime w).2 in
  checkOutRoute formatDateToUtcYYYYMMDD parseDateFromUtcYYYYMMDD
    getCurrentTime params w
  = match checkOut (mkCheckOut stream now) (stateOf stream w) with
    | Ok event =>
        (Ok (if bool_decide (eventType event = "GuestCheckedOut")
             then NoContent else Forbidden),
         appendToStream stream [event] w1)
    | Throw e => (Throw e, w1)
    end.
Proof using Type.
  intros Hid now w1. unfold checkOutRoute. run_handler. rewrite Hid.
  unfold readClock, handle, checkOutDecision. cbv beta iota zeta.
  change (default initialState (aggregateStream stream _))
    with (stateOf stream w).
  fold now. by destruct (checkOut _ _).
Qed.

Lemma readStream_appendToStream stream events w :
  readStream stream (appendToStream stream events w)
  = Some (default [] (readStream stream w) ++ events).
Proof using Type.
  unfold readStream, appendToStream. cbn. apply lookup_insert_eq.
Qed.

(** C3.  Once the parameters of a check-out request have been accepted,
    the answer depends only on the type of the event [checkOut] returns:
    it is NoContent exactly when that type is 'GuestCheckedOut' and
    Forbidden for every other returned event, and the returned event,
    [GuestCheckoutFailed] included, is appended to the history rather than
    raised.  Only a [checkOut] that throws makes the route throw. *)
Theorem checkOut_response_decided_by_event_type
  (params : Params) (stream : GuestStayAccountId) (w : World) :
  parseId params = Ok stream ->
  let route :=
    checkOutRoute formatDateToUtcYYYYMMDD parseDateFromUtcYYYYMMDD
      getCurrentTime params w in
  let decision :=
    checkOut (mkCheckOut stream (getCurrentTime (clockReads w)))
             (stateOf stream w) in
  (forall event,
      decision = Ok event ->
      (route.1 = Ok NoContent <-> eventType event = "GuestCheckedOut")
      /\ (eventType event <> "GuestCheckedOut" -> route.1 = Ok Forbidden)
      /\ readStream stream route.2
         = Some (default [] (readStream stream w) ++ [event]))
  /\ (forall e, decision = Throw e -> route.1 = Throw e).
Proof using Type.
  intros Hid route decision. subst route.
  rewrite (checkOutRoute_past_boundary _ _ _ Hid). fold decision.
  split.
  - intros event ->. cbn [fst snd]. split; [|split].
    + case_bool_decide; split; congruence.
    + intros Hother. by rewrite bool_decide_eq_false_2.
    + by rewrite readStream_appendToStream.
  - by intros e ->.
Qed.


(** What the check-in route does once the identifiers are accepted: the
    calls it makes, in order, and what happens when the stay is unknown. *)
Lemma checkInRoute_effects
  (params : Params) (guest room : string) (w : World) :
  assertNotEmptyString (guestId params) = Ok guest ->
  assertNotEmptyString (roomId params) = Ok room ->
  let now := getCurrentTime (clockReads w) in
  let found := doesGuestStayExist guest room now in
  let route :=
    checkInRoute formatDateToUtcYYYYMMDD doesGuestStayExist getCurrentTime
      params w in
  trace route.2
  = trace w ++ [ClockRead now; StayLookedUp guest room now found]
      ++ (if found then [CommandHandled (toId guest room now)] else [])
  /\ (found = false ->
      route.1 = Ok Forbidden
      /\ streams route.2 = streams w
      /\ forall stream, CommandHandled stream ∈ trace route.2 ->
                        CommandHandled stream ∈ trace w).
Proof using Type.
  intros Hguest Hroom now found route. subst route.
  unfold checkInRoute. run_handler. rewrite Hguest, Hroom.
  unfold readClock, lookUpStay. cbv beta iota zeta. fold now. fold found.
  destruct found; cbn [negb].
  - case_handle (@handle_world) Htrace; cbn [fst snd] in *; rewrite Htrace;
      cbn [logEffect trace]; by rewrite <- !app_assoc.
  - cbn [fst snd logEffect trace streams]. rewrite <- app_assoc.
    split; [done|]. intros _. split; [done|]. split; [done|].
    intros stream Hin.
    rewrite !elem_of_app, !elem_of_cons, !elem_of_nil in Hin.
    destruct Hin as [Hin|[[Hin|[]]|[Hin|[]]]]; [done|discriminate..].
Qed.

(** C4.  A check-in request with accepted identifiers reads the clock,
    then consults [doesGuestStayExist], and only then, and only when the
    answer was true, invokes the command handler.  When the answer is
    false the route answers Forbidden, the event store is untouched and the
    command handler has not run. *)
Theorem stay_looked_up_before_checkIn
  (params : Params) (guest room : string) (w : World) :
  assertNotEmptyString (guestId params) = Ok guest ->
  assertNotEmptyString (roomId params) = Ok room ->
  let now := getCurrentTime (clockReads w) in
  let found := doesGuestStayExist guest room now in
  let route :=
    checkInRoute formatDateToUtcYYYYMMDD doesGuestStayExist getCurrentTime
      params w in
  trace route.2
  = trace w ++ [ClockRead now; StayLookedUp guest room now found]
      ++ (if found then [CommandHandled (toId guest room now)] else [])
  /\ (found = false ->
      route.1 = Ok Forbidden
      /\ streams route.2 = streams w
      /\ forall stream, CommandHandled stream ∈ trace route.2 ->
                        CommandHandled stream ∈ trace w).
Proof using Type. apply checkInRoute_effects. Qed.

(** C7.  The account identifier is computed by [toGuestStayAccountId]
    on every route and depends on the date only through its calendar day.
    So a later request whose date parameter parses to a date on the day
    of the check-in resolves, in [parseGuestStayAccountId], to the very
    stream the check-in route handled with the full timestamp. *)
Theorem same_stay_same_account
  (params : Params) (guest room dateString : string) (date : Date)
  (w : World) :
  assertNotEmptyString (guestId params) = Ok guest ->
  assertNotEmptyString (roomId params) = Ok room ->
  assertNotEmptyString (Some dateString) = Ok dateString ->
  parseDateFromUtcYYYYMMDD dateString = Some date ->
  let now := getCurrentTime (clockReads w) in
  formatDateToUtcYYYYMMDD date = formatDateToUtcYYYYMMDD now ->
  let account := toId guest room now in
  parseId (mkParams (Some guest) (Some room) (Some dateString)) = Ok account
  /\ (doesGuestStayExist guest room now = true ->
      CommandHandled account
      ∈ trace (checkInRoute formatDateToUtcYYYYMMDD doesGuestStayExist
                 getCurrentTime params w).2)
  /\ (forall other,
         formatDateToUtcYYYYMMDD other = formatDateToUtcYYYYMMDD now ->
         toId guest room other = account).
Proof using Type.
  intros Hguest Hroom Hdate Hparse now Hday account. split; [|split].
  - pose proof (assertNotEmptyString_nonEmpty (guestId params)) as Hg.
    pose proof (assertNotEmptyString_nonEmpty (roomId params)) as Hr.
    rewrite Hguest in Hg. rewrite Hroom in Hr.
    destruct Hg as [Hg Hg']. destruct Hr as [Hr Hr'].
    rewrite Hg in Hg'. rewrite Hr in Hr'.
    assert (assertNotEmptyString (Some guest) = Ok guest) as Hguest'.
    { by destruct guest. }
    assert (assertNotEmptyString (Some room) = Ok room) as Hroom'.
    { by destruct room. }
    unfold parseGuestStayAccountId. cbn [guestId roomId checkInDate].
    rewrite Hguest', Hroom', Hdate. unfold parseDate. rewrite Hparse.
    subst account. unfold toGuestStayAccountId. by rewrite Hday.
  - intros Hfound.
    destruct (checkInRoute_effects params guest room w Hguest Hroom)
      as [Htrace _].
    rewrite Htrace. fold now. rewrite Hfound.
    rewrite !elem_of_app. right. right. apply list_elem_of_here.
  - intros other Hother. subst account. unfold toGuestStayAccountId.
    by rewrite Hother.
Qed.

(** C10.  Once the parameters of a details request have been accepted,
    the route answers NotFound when the aggregation result is null and
    when the rebuilt state's status is not 'Opened'; it answers OK, with
    the state as body, exactly when the state is [Opened].  A stream that
    does not exist and a checked-out account get the same answer. *)
Theorem details_only_while_opened
  (params : Params) (stream : GuestStayAccountId) (w : World) :
  parseId params = Ok stream ->
  let route w0 :=
    (getShoppingCartRoute formatDateToUtcYYYYMMDD parseDateFromUtcYYYYMMDD
       params w0).1 in
  (aggregateStream stream w = None -> route w = Ok NotFound)
  /\ (forall state,
         aggregateStream stream w = Some state ->
         status state <> Some "Opened" -> route w = Ok NotFound)
  /\ (forall state,
         aggregateStream stream w = Some state ->
         status state = Some "Opened" -> route w = Ok (OK state))
  /\ (forall body,
         route w = Ok (OK body) ->
         aggregateStream stream w = Some body
         /\ exists balance, body = Opened balance)
  /\ (forall w2,
         aggregateStream stream w = None ->
         aggregateStream stream w2 = Some CheckedOut ->
         route w = route w2).
Proof using Type.
  intros Hid route.
  assert (forall w0,
             route w0 = Ok (match aggregateStream stream w0 with
                            | None => NotFound
                            | Some state =>
                                if bool_decide (status state ≠ Some "Opened")
                                then NotFound else OK state
                            end)) as Hroute.
  { intros w0. subst route. unfold getShoppingCartRoute. run_handler.
    rewrite Hid. unfold aggregate. cbv beta iota zeta.
    rewrite aggregateStream_logEffect.
    destruct (aggregateStream stream w0) as [state|]; [|done].
    by case_bool_decide. }
  split; [|split; [|split; [|split]]].
  - intros Hnone. by rewrite Hroute, Hnone.
  - intros state Hstate Hstatus. rewrite Hroute, Hstate.
    by rewrite bool_decide_eq_true_2.
  - intros state Hstate Hstatus. rewrite Hroute, Hstate.
    rewrite bool_decide_eq_false_2; [done|]. by intros Hne.
  - intros body Hbody. rewrite Hroute in Hbody.
    destruct (aggregateStream stream w) as [state|]; [|done].
    case_bool_decide as Hstatus; [done|]. injection Hbody as <-.
    split; [done|]. destruct state; try done. by eexists.
  - intros w2 Hnone Hclosed. by rewrite !Hroute, Hnone, Hclosed.
Qed.


(** Every route either stops at its boundary, with a validation error and
    the world as it found it, or goes past it and calls a collaborator. *)
Lemma boundary_outcome (request : Request) (w : World) :
  if valid request
  then (length (trace w) < length (trace (api request w).2))%nat
  else exists code, api request w = (Throw (ValidationError code), w).
Proof using Type.
  destruct request as [params|params amount|params amount|params|params];
    cbn [guestStayAccountsApi validInput].
  - unfold checkInRoute. run_handler.
    pose proof (assertNotEmptyString_nonEmpty (guestId params)) as Hguest.
    destruct (assertNotEmptyString (guestId params)) as [guest|e];
      destruct Hguest as [Hguest ->]; [|subst e; stopped_at_boundary].
    pose proof (assertNotEmptyString_nonEmpty (roomId params)) as Hroom.
    destruct (assertNotEmptyString (roomId params)) as [room|e];
      destruct Hroom as [Hroom ->]; [|subst e; stopped_at_boundary].
    cbn [andb]. unfold readClock, lookUpStay. cbv beta iota zeta.
    destruct (doesGuestStayExist _ _ _); cbn [negb].
    + log_grows_by_handle (@handle_world).
    + log_grows.
  - unfold recordChargeRoute. run_handler.
    pose proof (parseGuestStayAccountId_validPeriod params) as Hid.
    destruct (parseId params) as [stream|e]; destruct Hid as [-> Hid];
      [|destruct Hid as [code ->]; stopped_at_boundary].
    pose proof (assertPositiveNumber_positive amount) as Hamount.
    destruct (assertPositiveNumber (Number amount)) as [q|e];
      destruct Hamount as [Hamount ->]; [|subst e; stopped_at_boundary].
    cbn [andb]. unfold readClock. cbv beta iota zeta.
    log_grows_by_handle (@handle_world).
  - unfold recordPaymentRoute. run_handler.
    pose proof (parseGuestStayAccountId_validPeriod params) as Hid.
    destruct (parseId params) as [stream|e]; destruct Hid as [-> Hid];
      [|destruct Hid as [code ->]; stopped_at_boundary].
    pose proof (assertPositiveNumber_positive amount) as Hamount.
    destruct (assertPositiveNumber (Number amount)) as [q|e];
      destruct Hamount as [Hamount ->]; [|subst e; stopped_at_boundary].
    cbn [andb]. unfold readClock. cbv beta iota zeta.
    log_grows_by_handle (@handle_world).
  - unfold checkOutRoute. run_handler.
    pose proof (parseGuestStayAccountId_validPeriod params) as Hid.
    destruct (parseId params) as [stream|e]; destruct Hid as [-> Hid];
      [|destruct Hid as [code ->]; stopped_at_boundary].
    unfold readClock. cbv beta iota zeta.
    log_grows_by_handle (@handle_world).
  - unfold getShoppingCartRoute. run_handler.
    pose proof (parseGuestStayAccountId_validPeriod params) as Hid.
    destruct (parseId params) as [stream|e]; destruct Hid as [-> Hid];
      [|destruct Hid as [code ->]; stopped_at_boundary].
    unfold aggregate. cbv beta iota zeta.
    destruct (aggregateStream _ _) as [state|]; [case_bool_decide|];
      cbn [mret Handler_ret]; log_grows.
Qed.

(** C8.  A request fails the boundary contract (a missing or empty
    identifier or date, a date that does not parse, an absent or
    non-positive amount) if and only if the route throws a validation
    error and leaves the world exactly as it found it; in particular the
    command handler has not been invoked for it. *)
Theorem invalid_input_stops_at_the_boundary (request : Request) (w : World) :
  (valid request = false
   <-> exists code, api request w = (Throw (ValidationError code), w))
  /\ (valid request = false ->
      forall stream,
        CommandHandled stream ∈ trace (api request w).2 ->
        CommandHandled stream ∈ trace w).
Proof using Type.
  pose proof (boundary_outcome request w) as Houtcome.
  destruct (valid request).
  - split; [|done]. split; [done|]. intros [code Hthrow].
    rewrite Hthrow in Houtcome. cbn in Houtcome. lia.
  - destruct Houtcome as [code Hthrow]. split.
    + split; eauto.
    + intros _ stream. by rewrite Hthrow.
Qed.

(** Serving a request keeps the event store approved. *)
Lemma approvedWorld_request (request : Request) (w : World) :
  approved w -> approved (api request w).2.
Proof using Type.
  intros Hw.
  destruct request as [params|params amount|params amount|params|params];
    cbn [guestStayAccountsApi].
  - unfold checkInRoute.
    change (approved
              ((guest ← liftResult (assertNotEmptyString (guestId params));
                room ← liftResult (assertNotEmptyString (roomId params));
                now ← readClock getCurrentTime;
                found ← lookUpStay doesGuestStayExist guest room now;
                if negb found then mret Forbidden
                else
                  x ← handle (toGuestStayAccountId formatDateToUtcYYYYMMDD
                                guest room now)
                        (pureDecision (checkIn (mkCheckIn guest room now))) tt;
                  mret ((fun _ => Created ("/guests/" +:+ guest +:+ "/stays/"
                                  +:+ room +:+ "/periods/"
                                  +:+ formatDateToUtcYYYYMMDD now)) x)) w).2).
    unfold mbind at 1 2 3 4, Handler_bind at 1 2 3 4, liftResult.
    cbv beta iota zeta.
    destruct (assertNotEmptyString (guestId params)) as [guest|e]; [|done].
    destruct (assertNotEmptyString (roomId params)) as [room|e]; [|done].
    unfold readClock, lookUpStay. cbv beta iota zeta.
    destruct (doesGuestStayExist guest room _) eqn:Hfound; cbn [negb].
    + rewrite then_answer_world. apply approvedWorld_handle.
      * by apply (approvedWorld_streams _ w).
      * intros state event g r d. unfold pureDecision, checkIn. cbn [fst].
        destruct state; [|done..]. intros [= <-] [= <- <- <-]. done.
    + by apply (approvedWorld_streams _ w).
  - unfold recordChargeRoute.
    unfold mbind at 1 2 3, Handler_bind at 1 2 3, liftResult.
    cbv beta iota zeta.
    destruct (parseId params) as [stream|e]; [|done].
    destruct (assertPositiveNumber (Number amount)) as [q|e]; [|done].
    unfold readClock. cbv beta iota zeta.
    rewrite (then_answer_world _ (fun _ => NoContent)).
    apply approvedWorld_handle.
    + by apply (approvedWorld_streams _ w).
    + intros state event g r d. unfold pureDecision, recordCharge. cbn [fst].
      destruct state; try done. by intros [= <-].
  - unfold recordPaymentRoute.
    unfold mbind at 1 2 3, Handler_bind at 1 2 3, liftResult.
    cbv beta iota zeta.
    destruct (parseId params) as [stream|e]; [|done].
    destruct (assertPositiveNumber (Number amount)) as [q|e]; [|done].
    unfold readClock. cbv beta iota zeta.
    rewrite (then_answer_world _ (fun _ => NoContent)).
    apply approvedWorld_handle.
    + by apply (approvedWorld_streams _ w).
    + intros state event g r d. unfold pureDecision, recordPayment. cbn [fst].
      destruct state; try done. by intros [= <-].
  - unfold checkOutRoute.
    unfold mbind at 1 2, Handler_bind at 1 2, liftResult.
    cbv beta iota zeta.
    destruct (parseId params) as [stream|e]; [|done].
    unfold readClock. cbv beta iota zeta.
    rewrite (then_answer_world _
               (fun wasCheckedOut : bool =>
                  if wasCheckedOut then NoContent else Forbidden)).
    apply approvedWorld_handle.
    + by apply (approvedWorld_streams _ w).
    + intros state event g r d. unfold checkOutDecision, checkOut.
      destruct state; try done. case_decide; cbn [fst]; by intros [= <-].
  - unfold getShoppingCartRoute. run_handler.
    destruct (parseId params) as [stream|e]; [|done].
    unfold aggregate. cbv beta iota zeta.
    destruct (aggregateStream _ _) as [state|];
      [case_bool_decide|]; by apply (approvedWorld_streams _ w).
Qed.

(** Whatever requests are served, starting from the empty store, every
    check-in on record is one the oracle accepted. *)
Theorem checked_in_stays_were_approved (requests : list Request) :
  approved (serve api requests emptyWorld).2.
Proof using Type.
  assert (forall w, approved w -> approved (serve api requests w).2) as Hserve.
  { induction requests as [|request requests IH]; intros w Hw; [done|].
    cbn [serve].
    pose proof (approvedWorld_request request w Hw) as Hstep.
    destruct (api request w) as [answer w1].
    specialize (IH w1 Hstep).
    by destruct (serve api requests w1) as [answers w2]. }
  apply Hserve. intros stream events Hread.
  unfold readStream, emptyWorld in Hread. cbn in Hread.
  by rewrite lookup_empty in Hread.
Qed.

(** * Further properties of the routes *)

(** A [handle] call followed by the answer, as one equation on the
    decision taken. *)
Lemma handle_then_answer {L : Type} stream
  (callback : GuestStayAccount -> L -> Result GuestStayAccountEvent * L)
  (locals : L) (answer : L -> Response) (w : World) :
  (x ← handle stream callback locals; mret (answer x)) w
  = match callback (stateOf stream w) locals with
    | (Ok event, locals') =>
        (Ok (answer locals'),
         appendToStream stream [event] (logEffect (CommandHandled stream) w))
    | (Throw e, _) => (Throw e, logEffect (CommandHandled stream) w)
    end.
Proof using Type.
  run_handler. unfold handle, stateOf. cbv zeta.
  rewrite aggregateStream_logEffect.
  by destruct (callback _ locals) as [[event|e] locals'].
Qed.

(** The world in which a command route calls [handle]: the clock has been
    read once, the store is as it was. *)
Lemma readClock_world (w : World) :
  streams (readClock getCurrentTime w).2 = streams w
  /\ clockReads (readClock getCurrentTime w).2 = S (clockReads w)
  /\ trace (readClock getCurrentTime w).2
     = trace w ++ [ClockRead (getCurrentTime (clockReads w))].
Proof using Type. done. Qed.

(** The charge route past its boundary. *)
Lemma recordChargeRoute_past_boundary params amount stream q w :
  parseId params = Ok stream ->
  assertPositiveNumber (Number amount) = Ok q ->
  let now := getCurrentTime (clockReads w) in
  let w1 := logEffect (CommandHandled stream) (readClock getCurrentTime w).2 in
  recordChargeRoute formatDateToUtcYYYYMMDD parseDateFromUtcYYYYMMDD
    getCurrentTime params amount w
  = match recordCharge (mkRecordCharge stream q now) (stateOf stream w) with
    | Ok event => (Ok NoContent, appendToStream stream [event] w1)
    | Throw e => (Throw e, w1)
    end.
Proof using Type.
  intros Hid Hamount now w1. unfold recordChargeRoute.
  unfold mbind at 1 2 3, Handler_bind at 1 2 3, liftResult.
  cbv beta iota zeta. rewrite Hid, Hamount.
  unfold readClock at 1. cbv beta iota zeta.
  rewrite (handle_then_answer _ _ _ (fun _ => NoContent)).
  unfold pureDecision. fold now.
  change (stateOf stream _) with (stateOf stream w).
  by destruct (recordCharge _ _).
Qed.

(** The payment route past its boundary. *)
Lemma recordPaymentRoute_past_boundary params amount stream q w :
  parseId params = Ok stream ->
  assertPositiveNumber (Number amount) = Ok q ->
  let now := getCurrentTime (clockReads w) in
  let w1 := logEffect (CommandHandled stream) (readClock getCurrentTime w).2 in
  recordPaymentRoute formatDateToUtcYYYYMMDD parseDateFromUtcYYYYMMDD
    getCurrentTime params amount w
  = match recordPayment (mkRecordPayment stream q now) (stateOf stream w) with
    | Ok event => (Ok NoContent, appendToStream stream [event] w1)
    | Throw e => (Throw e, w1)
    end.
Proof using Type.
  intros Hid Hamount now w1. unfold recordPaymentRoute.
  unfold mbind at 1 2 3, Handler_bind at 1 2 3, liftResult.
  cbv beta iota zeta. rewrite Hid, Hamount.
  unfold readClock at 1. cbv beta iota zeta.
  rewrite (handle_then_answer _ _ _ (fun _ => NoContent)).
  unfold pureDecision. fold now.
  change (stateOf stream _) with (stateOf stream w).
  by destruct (recordPayment _ _).
Qed.

(** The check-in route past its boundary and past the oracle. *)
Lemma checkInRoute_past_oracle params guest room w :
  assertNotEmptyString (guestId params) = Ok guest ->
  assertNotEmptyString (roomId params) = Ok room ->
  let now := getCurrentTime (clockReads w) in
  let stream := toId guest room now in
  let w1 :=
    logEffect (CommandHandled stream)
      (logEffect (StayLookedUp guest room now true)
         (readClock getCurrentTime w).2) in
  doesGuestStayExist guest room now = true ->
  checkInRoute formatDateToUtcYYYYMMDD doesGuestStayExist getCurrentTime
    params w
  = match checkIn (mkCheckIn guest room now) (stateOf stream w) with
    | Ok event =>
        (Ok (Created ("/guests/" +:+ guest +:+ "/stays/" +:+ room
                        +:+ "/periods/" +:+ formatDateToUtcYYYYMMDD now)),
         appendToStream stream [event] w1)
    | Throw e => (Throw e, w1)
    end.
Proof using Type.
  intros Hguest Hroom now stream w1 Hfound. unfold checkInRoute.
  unfold mbind at 1 2 3 4, Handler_bind at 1 2 3 4, liftResult.
  cbv beta iota zeta. rewrite Hguest, Hroom.
  unfold readClock at 1, lookUpStay. cbv beta iota zeta.
  fold now. rewrite Hfound. cbn [negb].
  rewrite (handle_then_answer _ _ _
             (fun _ => Created ("/guests/" +:+ guest +:+ "/stays/" +:+ room
                         +:+ "/periods/" +:+ formatDateToUtcYYYYMMDD now))).
  unfold pureDecision. fold stream.
  change (stateOf stream _) with (stateOf stream w).
  by destruct (checkIn _ _).
Qed.

Lemma readStream_appendToStream_other stream other events w :
  readStream other (appendToStream stream events w)
  = if decide (stream = other)
    then Some (default [] (readStream stream w) ++ events)
    else readStream other w.
Proof using Type.
  unfold readStream, appendToStream. cbn. apply lookup_insert.
Qed.


(** The runs of a route, with the facts of this development. *)
Ltac route_runs :=
  split_route assertNotEmptyString_nonEmpty
    parseGuestStayAccountId_validPeriod assertPositiveNumber_positive.

(** X7.  A request that passes the boundary of the check-in, charge,
    payment or check-out route reads the clock exactly once; a request
    stopped at the boundary, and every details request, does not read it
    at all. *)
Theorem clock_read_once_per_accepted_command (request : Request) (w : World) :
  clockReads (api request w).2
  = (clockReads w
     + match request with
       | GetShoppingCartRequest _ => 0
       | _ => if valid request then 1 else 0
       end)%nat.
Proof using Type.
  destruct request as [params|params amount|params amount|params|params];
    cbn [validInput];
    route_runs;
    cbn [snd clockReads logEffect appendToStream]; lia.
Qed.

(** X5.  A request leaves the history of every account but its own as it
    was: only the stream computed from its own parameters (and, for a
    check-in, from the clock reading) can change. *)
Theorem other_accounts_untouched
  (request : Request) (w : World) (other : GuestStayAccountId) :
  match request with
  | CheckInRequest params =>
      forall guest room,
        assertNotEmptyString (guestId params) = Ok guest ->
        assertNotEmptyString (roomId params) = Ok room ->
        other <> toId guest room (getCurrentTime (clockReads w))
  | RecordChargeRequest params _
  | RecordPaymentRequest params _
  | CheckOutRequest params
  | GetShoppingCartRequest params => parseId params <> Ok other
  end ->
  readStream other (api request w).2 = readStream other w.
Proof using Type.
  destruct request as [params|params amount|params amount|params|params];
    intros Hother;
    route_runs;
    cbn [snd]; try done;
    rewrite readStream_appendToStream_other; case_decide; try done.
  all: exfalso; first [by eapply Hother | congruence].
Qed.

(** X8.  A request that ends in a thrown error, whether at the boundary
    or in the decision, leaves the event store exactly as it found it. *)
Theorem thrown_request_records_nothing
  (request : Request) (w : World) (e : Error) :
  (api request w).1 = Throw e -> streams (api request w).2 = streams w.
Proof using Type.
  destruct request as [params|params amount|params amount|params|params];
    route_runs; by cbn [fst snd].
Qed.

(** X9.  The answers a route can give: check-in answers Forbidden or
    Created, charge and payment answer NoContent, check-out answers
    NoContent or Forbidden, and the details route answers NotFound or OK
    with a body whose status is 'Opened'. *)
Theorem answers_of_each_route
  (request : Request) (w : World) (response : Response) :
  (api request w).1 = Ok response ->
  match request with
  | CheckInRequest _ =>
      response = Forbidden \/ exists url, response = Created url
  | RecordChargeRequest _ _ | RecordPaymentRequest _ _ => response = NoContent
  | CheckOutRequest _ => response = NoContent \/ response = Forbidden
  | GetShoppingCartRequest _ =>
      response = NotFound
      \/ exists body, response = OK body /\ status body = Some "Opened"
  end.
Proof using Type.
  destruct request as [params|params amount|params amount|params|params];
    route_runs; cbn [fst];
    intros [= <-]; eauto.
  - case_bool_decide; auto.
  - right. apply bool_decide_eq_false in Hstatus. eexists. split; [done|].
    by apply dec_stable.
Qed.

(** X4.  The details route is read-only: whatever its parameters, it
    leaves the event store and the clock as they were and does not invoke
    the command handler. *)
Theorem details_route_is_read_only (params : Params) (w : World) :
  let w' :=
    (getShoppingCartRoute formatDateToUtcYYYYMMDD parseDateFromUtcYYYYMMDD
       params w).2 in
  streams w' = streams w
  /\ clockReads w' = clockReads w
  /\ (forall stream,
         CommandHandled stream ∈ trace w' ->
         CommandHandled stream ∈ trace w).
Proof using Type.
  route_runs; cbn [snd];
    (split; [done|split; [done|]]); try done;
    intros stream; cbn [logEffect trace]; rewrite elem_of_app;
    intros [Hin|Hin]; try done;
    by apply list_elem_of_singleton in Hin.
Qed.

(** X1.  Once its parameters and its amount are accepted, the charge
    route decides [recordCharge] on the state of the named account, with
    the amount of the request body and the clock reading.  When the
    decision returns an event the route answers NoContent and that event
    is appended to the account's history; when it throws, the route
    throws the same error and records nothing. *)
Theorem charge_route_outcome
  (params : Params) (amount : option Amount) (stream : GuestStayAccountId)
  (q : Amount) (w : World) :
  parseId params = Ok stream ->
  assertPositiveNumber (Number amount) = Ok q ->
  let route :=
    recordChargeRoute formatDateToUtcYYYYMMDD parseDateFromUtcYYYYMMDD
      getCurrentTime params amount w in
  let decision :=
    recordCharge
      (mkRecordCharge stream q (getCurrentTime (clockReads w)))
      (stateOf stream w) in
  amount = Some q
  /\ (forall event,
         decision = Ok event ->
         route.1 = Ok NoContent
         /\ readStream stream route.2
            = Some (default [] (readStream stream w) ++ [event]))
  /\ (forall e,
         decision = Throw e ->
         route.1 = Throw e /\ streams route.2 = streams w).
Proof using Type.
  intros Hid Hamount route decision. subst route.
  rewrite (recordChargeRoute_past_boundary _ _ _ _ _ Hid Hamount).
  fold decision. split; [|split].
  - pose proof (assertPositiveNumber_positive amount) as Hpositive.
    rewrite Hamount in Hpositive. by destruct Hpositive.
  - intros event ->. cbn [fst snd]. split; [done|].
    by rewrite readStream_appendToStream_other, decide_True.
  - by intros e ->.
Qed.

(** X2.  Once its parameters and its amount are accepted, the payment
    route decides [recordPayment] on the state of the named account, with
    the amount of the request body and the clock reading.  When the
    decision returns an event the route answers NoContent and that event
    is appended to the account's history; when it throws, the route
    throws the same error and records nothing. *)
Theorem payment_route_outcome
  (params : Params) (amount : option Amount) (stream : GuestStayAccountId)
  (q : Amount) (w : World) :
  parseId params = Ok stream ->
  assertPositiveNumber (Number amount) = Ok q ->
  let route :=
    recordPaymentRoute formatDateToUtcYYYYMMDD parseDateFromUtcYYYYMMDD
      getCurrentTime params amount w in
  let decision :=
    recordPayment
      (mkRecordPayment stream q (getCurrentTime (clockReads w)))
      (stateOf stream w) in
  amount = Some q
  /\ (forall event,
         decision = Ok event ->
         route.1 = Ok NoContent
         /\ readStream stream route.2
            = Some (default [] (readStream stream w) ++ [event]))
  /\ (forall e,
         decision = Throw e ->
         route.1 = Throw e /\ streams route.2 = streams w).
Proof using Type.
  intros Hid Hamount route decision. subst route.
  rewrite (recordPaymentRoute_past_boundary _ _ _ _ _ Hid Hamount).
  fold decision. split; [|split].
  - pose proof (assertPositiveNumber_positive amount) as Hpositive.
    rewrite Hamount in Hpositive. by destruct Hpositive.
  - intros event ->. cbn [fst snd]. split; [done|].
    by rewrite readStream_appendToStream_other, decide_True.
  - by intros e ->.
Qed.

(** X3.  When the identifiers are accepted and the oracle knows the stay,
    the check-in route decides [checkIn] on the state of the account of
    the guest, the room and the clock reading.  When the decision returns
    an event the route answers Created with the URL
    /guests/<guest>/stays/<room>/periods/<day of the clock reading> and
    the event is appended to that account's history; when it throws, the
    route throws the same error and records nothing. *)
Theorem checkIn_route_outcome
  (params : Params) (guest room : string) (w : World) :
  assertNotEmptyString (guestId params) = Ok guest ->
  assertNotEmptyString (roomId params) = Ok room ->
  let now := getCurrentTime (clockReads w) in
  let stream := toId guest room now in
  let route :=
    checkInRoute formatDateToUtcYYYYMMDD doesGuestStayExist getCurrentTime
      params w in
  let decision := checkIn (mkCheckIn guest room now) (stateOf stream w) in
  doesGuestStayExist guest room now = true ->
  (forall event,
      decision = Ok event ->
      route.1
      = Ok (Created ("/guests/" +:+ guest +:+ "/stays/" +:+ room
                       +:+ "/periods/" +:+ formatDateToUtcYYYYMMDD now))
      /\ readStream stream route.2
         = Some (default [] (readStream stream w) ++ [event]))
  /\ (forall e,
         decision = Throw e ->
         route.1 = Throw e /\ streams route.2 = streams w).
Proof using Type.
  intros Hguest Hroom now stream route decision Hfound. subst route.
  rewrite (checkInRoute_past_oracle _ _ _ _ Hguest Hroom Hfound).
  fold now. fold stream. fold decision. split.
  - intros event ->. cbn [fst snd]. split; [done|].
    by rewrite readStream_appendToStream_other, decide_True.
  - by intros e ->.
Qed.

(** One request adds at most one event to a history and removes none. *)
Lemma request_extends_history
  (request : Request) (w : World) (stream : GuestStayAccountId) :
  exists more,
    default [] (readStream stream (api request w).2)
    = default [] (readStream stream w) ++ more
    /\ (length more <= 1)%nat
    /\ (is_Some (readStream stream w) ->
        is_Some (readStream stream (api request w).2)).
Proof using Type.
  destruct request as [params|params amount|params amount|params|params];
    route_runs;
    cbn [snd];
    try (exists []; rewrite app_nil_r; split; [done|split; [cbn; lia|done]]);
    rewrite readStream_appendToStream_other; case_decide;
    try (exists []; rewrite app_nil_r; split; [done|split; [cbn; lia|done]]);
    subst; eexists [_]; cbn [default length];
    (split; [done|split; [lia|done]]).
Qed.

(** X6.  The store is append-only under the API: whatever requests are
    served, a history that exists is still there afterwards with its
    events in place, followed by at most one new event per request. *)
Theorem histories_only_grow
  (requests : list Request) (w : World) (stream : GuestStayAccountId)
  (events : list GuestStayAccountEvent) :
  readStream stream w = Some events ->
  exists more,
    readStream stream (serve api requests w).2 = Some (events ++ more)
    /\ (length more <= length requests)%nat.
Proof using Type.
  revert w events.
  induction requests as [|request requests IH]; intros w events Hevents.
  - exists []. by rewrite app_nil_r.
  - cbn [serve].
    destruct (request_extends_history request w stream)
      as (step & Hstep & Hlength & Hkept).
    destruct (api request w) as [answer w1]. cbn [snd] in *.
    destruct (Hkept (ex_intro _ events Hevents)) as [events1 Hevents1].
    rewrite Hevents, Hevents1 in Hstep. cbn in Hstep. subst events1.
    destruct (IH w1 _ Hevents1) as (more & Hmore & Hmorelength).
    destruct (serve api requests w1) as [answers w2]. cbn [snd] in *.
    exists (step ++ more). rewrite app_assoc. split; [done|].
    rewrite length_app. cbn [length]. lia.
Qed.

(** X10.  The charge and payment routes check the parameters before the
    body, and the three strings before the date: a missing or empty
    parameter is reported as such whatever the date and the amount are, an
    unparseable date is reported only when the three strings are there,
    and a bad amount only when the whole period is valid.  In each case
    nothing else has happened to the world. *)
Theorem period_before_amount
  (params : Params) (amount : option Amount) (w : World) :
  let charge :=
    recordChargeRoute formatDateToUtcYYYYMMDD parseDateFromUtcYYYYMMDD
      getCurrentTime params amount w in
  let payment :=
    recordPaymentRoute formatDateToUtcYYYYMMDD parseDateFromUtcYYYYMMDD
      getCurrentTime params amount w in
  (nonEmptyString (guestId params) && nonEmptyString (roomId params)
   && nonEmptyString (checkInDate params) = false ->
   charge = (Throw (ValidationError NOT_A_NONEMPTY_STRING), w)
   /\ payment = (Throw (ValidationError NOT_A_NONEMPTY_STRING), w))
  /\ (nonEmptyString (guestId params) && nonEmptyString (roomId params)
      && nonEmptyString (checkInDate params) = true ->
      validDate parseDateFromUtcYYYYMMDD (checkInDate params) = false ->
      charge = (Throw (ValidationError INVALID_DATE_FORMAT), w)
      /\ payment = (Throw (ValidationError INVALID_DATE_FORMAT), w))
  /\ (validPeriod parseDateFromUtcYYYYMMDD params = true ->
      strictlyPositive amount = false ->
      charge = (Throw (ValidationError NOT_A_POSITIVE_NUMBER), w)
      /\ payment = (Throw (ValidationError NOT_A_POSITIVE_NUMBER), w)).
Proof using Type.
  intros charge payment. subst charge payment.
  unfold recordChargeRoute, recordPaymentRoute, parseGuestStayAccountId,
    parseDate, validPeriod, validDate.
  run_handler.
  pose proof (assertNotEmptyString_nonEmpty (guestId params)) as Hguest.
  pose proof (assertNotEmptyString_nonEmpty (roomId params)) as Hroom.
  pose proof (assertNotEmptyString_nonEmpty (checkInDate params)) as Hdate.
  pose proof (assertPositiveNumber_positive amount) as Hamount.
  destruct (assertNotEmptyString (guestId params)) as [guest|?];
    destruct Hguest as [Hguest ->]; [|subst; by repeat split].
  destruct (assertNotEmptyString (roomId params)) as [room|?];
    destruct Hroom as [Hroom ->]; [|subst; by repeat split].
  destruct (assertNotEmptyString (checkInDate params)) as [dateString|?];
    destruct Hdate as [Hdate ->]; [|subst; by repeat split].
  rewrite Hdate. cbn [andb].
  destruct (parseDateFromUtcYYYYMMDD dateString) as [date|]; cbn;
    [|by repeat split].
  destruct (assertPositiveNumber (Number amount)) as [q|?];
    destruct Hamount as [Hamount ->]; [|subst; by repeat split].
  by repeat split.
Qed.

(** X11.  [parseGuestStayAccountId] succeeds exactly when the three
    parameters are present and non-empty and the date parses, and the
    identifier it returns is that of this guest, this room and the parsed
    date. *)
Theorem parseGuestStayAccountId_contract
  (params : Params) (stream : GuestStayAccountId) :
  parseId params = Ok stream
  <-> exists guest room dateString date,
      guestId params = Some guest /\ guest <> ""
      /\ roomId params = Some room /\ room <> ""
      /\ checkInDate params = Some dateString /\ dateString <> ""
      /\ parseDateFromUtcYYYYMMDD dateString = Some date
      /\ stream = toId guest room date.
Proof using Type.
  unfold parseGuestStayAccountId, parseDate. split.
  - destruct (guestId params) as [[|c guest]|]; cbn; [done| |done].
    destruct (roomId params) as [[|c' room]|]; cbn; [done| |done].
    destruct (checkInDate params) as [[|c'' dateString]|]; cbn; [done| |done].
    destruct (parseDateFromUtcYYYYMMDD _) as [date|] eqn:Hparse; [|done].
    intros [= <-]. by eexists _, _, _, date.
  - intros (guest & room & dateString & date & -> & Hguest & -> & Hroom
            & -> & Hdate & Hparse & ->).
    destruct guest; [done|]. destruct room; [done|].
    destruct dateString; [done|]. cbn. by rewrite Hparse.
Qed.

End ApiProperties.

(** ** The reference instance at work *)

(** A whole stay served by the API: check-in, a charge of 100, a refused
    check-out, the payment, the check-out, and then an account that can no
    longer be read or charged. *)
Example stay_of_the_known_guest :
  (serve sampleApi
     [CheckInRequest sampleStay;
      RecordChargeRequest samplePeriod (Some (Qc_of_Z 100));
      CheckOutRequest samplePeriod;
      RecordPaymentRequest samplePeriod (Some (Qc_of_Z 100));
      CheckOutRequest samplePeriod;
      GetShoppingCartRequest samplePeriod;
      RecordChargeRequest samplePeriod (Some (Qc_of_Z 5));
      RecordChargeRequest samplePeriod (Some (Qc_of_Z 0));
      CheckInRequest (mkParams (Some "guest-9") (Some "room-12") None)]
     emptyWorld).1
  = [Ok (Created "/guests/guest-7/stays/room-12/periods/2023-11-14");
     Ok NoContent;
     Ok Forbidden;
     Ok NoContent;
     Ok NoContent;
     Ok NotFound;
     Throw (IllegalStateError NotOpen);
     Throw (ValidationError NOT_A_POSITIVE_NUMBER);
     Ok Forbidden].
Proof. vm_compute. reflexivity. Qed.

(** ** The theorems with hypotheses, at the reference instance *)

(** C3 at the open account with 50 on it: the check-out is refused. *)
Lemma checkOut_response_decided_by_event_type_witness :
  (checkOutRoute utcFormat utcParse sampleClock samplePeriod openWorld).1
  = Ok Forbidden.
Proof.
  refine (proj1 (proj2
            (proj1 (checkOut_response_decided_by_event_type
                      utcFormat utcParse sampleClock
                      samplePeriod sampleAccountId openWorld _)
               (GuestCheckoutFailed sampleAccountId "balance not settled"
                                    1700000002000%Z) _)) _).
  - vm_compute. reflexivity.
  - vm_compute. reflexivity.
  - discriminate.
Defined.

(** C4 at a guest the oracle does not know. *)
Lemma stay_looked_up_before_checkIn_witness :
  (checkInRoute utcFormat sampleOracle sampleClock
     (mkParams (Some "guest-9") (Some "room-12") None) emptyWorld).1
  = Ok Forbidden.
Proof.
  refine (proj1 (proj2
            (stay_looked_up_before_checkIn utcFormat sampleOracle sampleClock
               (mkParams (Some "guest-9") (Some "room-12") None)
               "guest-9" "room-12" emptyWorld _ _) _)).
  - reflexivity.
  - reflexivity.
  - vm_compute. reflexivity.
Defined.

(** C7 at the check-in of the known guest: the period named in the
    answer's URL resolves to the account the check-in wrote to. *)
Lemma same_stay_same_account_witness :
  parseGuestStayAccountId utcFormat utcParse samplePeriod
  = Ok (toGuestStayAccountId utcFormat knownGuest "room-12" (sampleClock 0)).
Proof.
  refine (proj1 (same_stay_same_account utcFormat utcParse sampleOracle
                   sampleClock sampleStay knownGuest "room-12" "2023-11-14"
                   1699920000000%Z emptyWorld _ _ _ _ _)).
  - reflexivity.
  - reflexivity.
  - reflexivity.
  - vm_compute. reflexivity.
  - vm_compute. reflexivity.
Defined.

(** C10 at the checked-out account: its details are not found. *)
Lemma details_only_while_opened_witness :
  (getShoppingCartRoute utcFormat utcParse samplePeriod closedWorld).1
  = Ok NotFound.
Proof.
  refine (proj1 (proj2
            (details_only_while_opened utcFormat utcParse samplePeriod
               sampleAccountId closedWorld _)) CheckedOut _ _).
  - vm_compute. reflexivity.
  - vm_compute. reflexivity.
  - discriminate.
Defined.

(** X1 at the open account: a further charge of 50 is recorded. *)
Lemma charge_route_outcome_witness :
  (recordChargeRoute utcFormat utcParse sampleClock samplePeriod
     (Some (Qc_of_Z 50)) openWorld).1
  = Ok NoContent.
Proof.
  refine (proj1 (proj1 (proj2
            (charge_route_outcome utcFormat utcParse sampleClock
               samplePeriod (Some (Qc_of_Z 50)) sampleAccountId
               (Qc_of_Z 50) openWorld _ _))
            (ChargeRecorded sampleAccountId (Qc_of_Z 50) 1700000002000%Z)
            _)).
  - vm_compute. reflexivity.
  - vm_compute. reflexivity.
  - vm_compute. reflexivity.
Defined.

(** X2 at the open account: a payment of 50 is recorded. *)
Lemma payment_route_outcome_witness :
  (recordPaymentRoute utcFormat utcParse sampleClock samplePeriod
     (Some (Qc_of_Z 50)) openWorld).1
  = Ok NoContent.
Proof.
  refine (proj1 (proj1 (proj2
            (payment_route_outcome utcFormat utcParse sampleClock
               samplePeriod (Some (Qc_of_Z 50)) sampleAccountId
               (Qc_of_Z 50) openWorld _ _))
            (PaymentRecorded sampleAccountId (Qc_of_Z 50) 1700000002000%Z)
            _)).
  - vm_compute. reflexivity.
  - vm_compute. reflexivity.
  - vm_compute. reflexivity.
Defined.

(** X3 at the first check-in of the known guest. *)
Lemma checkIn_route_outcome_witness :
  (checkInRoute utcFormat sampleOracle sampleClock sampleStay emptyWorld).1
  = Ok (Created ("/guests/" +:+ knownGuest +:+ "/stays/" +:+ "room-12"
                   +:+ "/periods/" +:+ utcFormat (sampleClock 0))).
Proof.
  refine (proj1 (proj1
            (checkIn_route_outcome utcFormat sampleOracle sampleClock
               sampleStay knownGuest "room-12" emptyWorld _ _ _)
            (GuestCheckedIn knownGuest "room-12" 1700000000000%Z) _)).
  - reflexivity.
  - reflexivity.
  - vm_compute. reflexivity.
  - vm_compute. reflexivity.
Defined.

(** X5 at a charge to the known guest: the account of another guest in
    the same room on the same day is as it was. *)
Lemma other_accounts_untouched_witness :
  readStream (mkGuestStayAccountId "guest-8" "room-12" "2023-11-14")
    (sampleApi (RecordChargeRequest samplePeriod (Some (Qc_of_Z 50)))
       openWorld).2
  = readStream (mkGuestStayAccountId "guest-8" "room-12" "2023-11-14")
      openWorld.
Proof.
  apply (other_accounts_untouched utcFormat utcParse sampleOracle sampleClock
           (RecordChargeRequest samplePeriod (Some (Qc_of_Z 50))) openWorld
           (mkGuestStayAccountId "guest-8" "room-12" "2023-11-14")).
  vm_compute. discriminate.
Defined.

(** X6 at the open account, through a refused check-out and a payment. *)
Lemma histories_only_grow_witness :
  exists more,
    readStream sampleAccountId
      (serve sampleApi
         [CheckOutRequest samplePeriod;
          RecordPaymentRequest samplePeriod (Some (Qc_of_Z 50))]
         openWorld).2
    = Some ([GuestCheckedIn knownGuest "room-12" 1700000000000%Z;
             ChargeRecorded sampleAccountId (Qc_of_Z 50) 1700000001000%Z]
            ++ more)
    /\ (length more <= 2)%nat.
Proof.
  apply (histories_only_grow utcFormat utcParse sampleOracle sampleClock
           [CheckOutRequest samplePeriod;
            RecordPaymentRequest samplePeriod (Some (Qc_of_Z 50))]
           openWorld sampleAccountId).
  vm_compute. reflexivity.
Defined.

(** X8 at the checked-out account: a charge throws and records nothing. *)
Lemma thrown_request_records_nothing_witness :
  streams (sampleApi (RecordChargeRequest samplePeriod (Some (Qc_of_Z 5)))
             closedWorld).2
  = streams closedWorld.
Proof.
  apply (thrown_request_records_nothing utcFormat utcParse sampleOracle
           sampleClock (RecordChargeRequest samplePeriod (Some (Qc_of_Z 5)))
           closedWorld (IllegalStateError NotOpen)).
  vm_compute. reflexivity.
Defined.

(** X9 at the open account with 50 on it: the check-out answers one of
    its two answers. *)
Lemma answers_of_each_route_witness :
  Forbidden = NoContent \/ Forbidden = Forbidden.
Proof.
  apply (answers_of_each_route utcFormat utcParse sampleOracle sampleClock
           (CheckOutRequest samplePeriod) openWorld Forbidden).
  vm_compute. reflexivity.
Defined.
